(** * The InfraStack deployment descriptor (infra/infra_stack.py)

    The repository declares a static-site deployment: a website bucket, a
    CDN distribution in front of it and a content-sync action, all inside
    the constructor of [InfraStack].  The constructor is embedded as a
    computation in a state-and-exception monad over the construct tree of
    the stack; the toolkit's constructs record the properties they are
    given, so that the resource graph can be inspected afterwards. *)

From Stdlib Require Import Ascii String.
From stdpp Require Import gmap strings list fin_maps.

Local Open Scope string_scope.

(** ** os.path (posixpath), as far as the descriptor uses it *)

Module os_path.

Definition sep : ascii := "/"%char.

Fixpoint has_sep (p : string) : bool :=
  match p with
  | EmptyString => false
  | String c r => if Ascii.eqb c sep then true else has_sep r
  end.

(** [sep * len(p) == p] *)
Fixpoint all_sep (p : string) : bool :=
  match p with
  | EmptyString => true
  | String c r => if Ascii.eqb c sep then all_sep r else false
  end.

(** [p[:p.rfind(sep) + 1]] *)
Fixpoint upto_last_sep (p : string) : string :=
  match p with
  | EmptyString => EmptyString
  | String c r => if has_sep p then String c (upto_last_sep r) else EmptyString
  end.

(** [p.rstrip(sep)] *)
Fixpoint rstrip_sep (p : string) : string :=
  match p with
  | EmptyString => EmptyString
  | String c r => if all_sep p then EmptyString else String c (rstrip_sep r)
  end.

Definition is_empty (p : string) : bool :=
  match p with EmptyString => true | _ => false end.

Fixpoint endswith_sep (p : string) : bool :=
  match p with
  | EmptyString => false
  | String c EmptyString => Ascii.eqb c sep
  | String _ r => endswith_sep r
  end.

Definition startswith_sep (p : string) : bool :=
  match p with
  | String c _ => Ascii.eqb c sep
  | EmptyString => false
  end.

(** [os.path.dirname]: the head up to the last separator, with trailing
    separators stripped unless the head consists of separators only. *)
Definition dirname (p : string) : string :=
  let head := upto_last_sep p in
  if negb (is_empty head) && negb (all_sep head) then rstrip_sep head else head.

(** [os.path.join(a, b)] for one component [b]. *)
Definition join (a b : string) : string :=
  if startswith_sep b then b
  else if is_empty a || endswith_sep a then a +:+ b
  else a +:+ String sep b.

End os_path.

(** ** The toolkit's vocabulary

    The constructs of aws_cdk are not part of the repository.  They are
    modelled as records of the keyword arguments the descriptor passes;
    an argument the descriptor leaves out has the toolkit's default,
    [None], [false] or empty. *)

(** A value that is only known at deploy time is a sequence of literal
    parts and references to attributes of declared constructs. *)
Inductive Part :=
| Lit (s : string)
| Attr (construct_id : string) (attribute : string).

Definition Value := list Part.

Module RemovalPolicy.
Inductive t := DESTROY | RETAIN | SNAPSHOT.
End RemovalPolicy.

Module iam.

Inductive Principal :=
| AnyPrincipal
| ArnPrincipal (arn : Value)
| ServicePrincipal (service : string).

Record PolicyStatement := {
  actions : list string;
  resources : list Value;
  principals : list Principal;
}.

End iam.

Module s3.

Record BlockPublicAccessOptions := {
  block_public_acls : bool;
  block_public_policy : bool;
  ignore_public_acls : bool;
  restrict_public_buckets : bool;
}.

Module BlockPublicAccess.
(** Modelled from the spec: the toolkit's predefined settings, which
    are not in src/: BLOCK_ALL shuts every route to public access,
    BLOCK_ACLS shuts the ACL route and leaves the policy route open. *)
Definition BLOCK_ALL : BlockPublicAccessOptions :=
  {| block_public_acls := true; block_public_policy := true;
     ignore_public_acls := true; restrict_public_buckets := true |}.
Definition BLOCK_ACLS : BlockPublicAccessOptions :=
  {| block_public_acls := true; block_public_policy := false;
     ignore_public_acls := true; restrict_public_buckets := false |}.
End BlockPublicAccess.

Module BucketAccessControl.
Inductive t := PRIVATE | PUBLIC_READ | PUBLIC_READ_WRITE | AUTHENTICATED_READ.
End BucketAccessControl.

(** The keyword arguments of [s3.Bucket]. *)
Record BucketProps := {
  website_index_document : option string;
  website_error_document : option string;
  public_read_access : bool;
  block_public_access : option BlockPublicAccessOptions;
  removal_policy : option RemovalPolicy.t;
  auto_delete_objects : bool;
  access_control : option BucketAccessControl.t;
}.

(** A declared bucket: its arguments and the resource policy that
    [add_to_resource_policy] extends in place. *)
Record BucketNode := {
  props : BucketProps;
  policy : list iam.PolicyStatement;
}.

(** [bucket.bucket_arn] *)
Definition bucket_arn (bucket : string) : Value :=
  [Attr bucket "Arn"].

(** [bucket.arn_for_objects(key_pattern)] *)
Definition arn_for_objects (bucket : string) (key_pattern : string) : Value :=
  [Attr bucket "Arn"; Lit "/"; Lit key_pattern].

(** [bucket.bucket_website_url] *)
Definition bucket_website_url (bucket : string) : Value :=
  [Attr bucket "WebsiteURL"].

End s3.

Module origins.
Inductive Origin :=
| S3BucketOrigin (bucket : string).
End origins.

Module cloudfront.

Module ViewerProtocolPolicy.
Inductive t := HTTPS_ONLY | REDIRECT_TO_HTTPS | ALLOW_ALL.
End ViewerProtocolPolicy.

Module CachePolicy.
Inductive t := CACHING_OPTIMIZED | CACHING_DISABLED.
End CachePolicy.

Record BehaviorOptions := {
  origin : origins.Origin;
  viewer_protocol_policy : option ViewerProtocolPolicy.t;
  cache_policy : option CachePolicy.t;
}.

Record ErrorResponse := {
  http_status : nat;
  response_http_status : option nat;
  response_page_path : option string;
}.

(** The keyword arguments of [cloudfront.Distribution]. *)
Record DistributionProps := {
  default_behavior : BehaviorOptions;
  additional_behaviors : gmap string BehaviorOptions;
  default_root_object : option string;
  error_responses : list ErrorResponse;
}.

(** [distribution.distribution_domain_name] *)
Definition distribution_domain_name (distribution : string) : Value :=
  [Attr distribution "DomainName"].

End cloudfront.

Module s3deploy.

(** [Source.asset(path)] names a local directory; the deployment binds
    it, which reads the directory. *)
Inductive Source :=
| asset (path : string).

Record BoundSource := {
  asset_path : string;
  asset_content : gmap string string;
}.

(** The keyword arguments of [s3deploy.BucketDeployment], with the
    sources as they are once bound. *)
Record BucketDeploymentNode := {
  sources : list BoundSource;
  destination_bucket : string;
  distribution : option string;
  distribution_paths : list string;
}.

End s3deploy.

Record CfnOutputNode := {
  value : Value;
}.

(** ** The construct tree *)

(** Besides what the descriptor declares, a stack holds the singletons
    that the toolkit creates on behalf of a construct: the provider behind
    [auto_delete_objects] and the handler behind a bucket deployment. *)
Inductive Construct :=
| CBucket (b : s3.BucketNode)
| CDistribution (d : cloudfront.DistributionProps)
| CBucketDeployment (bd : s3deploy.BucketDeploymentNode)
| COutput (o : CfnOutputNode)
| CCustomResourceProvider (resource_type : string)
| CSingletonFunction (purpose : string).

(** The value of a keyword argument. *)
Inductive PyValue :=
| PyNone
| PyStr (s : string)
| PyBool (b : bool)
| PyList (l : list string)
| PyDict (d : gmap string string)
| PyObject (class_name : string).

(** A stack: the id of its node, the keyword arguments [Stack.__init__]
    accepted, and its children by construct id.  A Python variable that
    holds a construct is modelled by the construct's id, so that every
    holder of the reference sees a later mutation of the construct. *)
Record StackNode := {
  stack_id : string;
  stack_kwargs : gmap string PyValue;
  children : gmap string Construct;
}.

(** What the constructor reads from outside: the path of its own module
    ([__file__]) and the directories of the local file system, each a map
    from relative file name to content. *)
Record Env := {
  module_file : string;
  directories : gmap string (gmap string string);
}.

Inductive Exception :=
| TypeError (keyword : string)
| EmptyId
| DuplicateConstruct (id : string)
| StackNameTooLong (name : string)
| InvalidStackName (name : string)
| PublicAccessBlocked
| AutoDeleteWithoutDestroy
| DistributionPathsWithoutDistribution
| DistributionPathNotAbsolute (path : string)
| AssetNotFound (path : string).

(** ** State and exceptions

    A statement of the constructor runs on the stack under construction
    and either returns or raises; the stack keeps what was declared
    before the exception. *)

Inductive Completion (A : Type) :=
| Returned (a : A)
| Raised (e : Exception).
Arguments Returned {A} a.
Arguments Raised {A} e.

Definition M (A : Type) : Type := StackNode -> StackNode * Completion A.

Definition ret {A} (a : A) : M A := fun s => (s, Returned a).

Definition raise {A} (e : Exception) : M A := fun s => (s, Raised e).

Definition bind {A B} (m : M A) (k : A -> M B) : M B :=
  fun s =>
    match m s with
    | (s', Returned a) => k a s'
    | (s', Raised e) => (s', Raised e)
    end.

Notation "x <- m ;; k" := (bind m (fun x => k))
  (at level 100, m at next level, right associativity).
Notation "m ;;; k" := (bind m (fun _ => k))
  (at level 100, right associativity).

(** ** The toolkit's operations *)

Definition set_children (s : StackNode) (m : gmap string Construct) : StackNode :=
  {| stack_id := stack_id s; stack_kwargs := stack_kwargs s; children := m |}.

(** Every construct registers itself under its id in its scope; an id
    that is taken is refused. *)
Definition add_child (id : string) (c : Construct) : M unit :=
  fun s =>
    match children s !! id with
    | Some _ => (s, Raised (DuplicateConstruct id))
    | None => (set_children s (<[id := c]> (children s)), Returned tt)
    end.

(** A singleton of the stack is created by the first construct that
    needs it and shared afterwards. *)
Definition get_or_create_child (id : string) (c : Construct) : M unit :=
  fun s =>
    match children s !! id with
    | Some _ => (s, Returned tt)
    | None => (set_children s (<[id := c]> (children s)), Returned tt)
    end.

Definition with_bucket (f : s3.BucketNode -> s3.BucketNode) (c : Construct) : Construct :=
  match c with
  | CBucket b => CBucket (f b)
  | _ => c
  end.

(** [bucket.add_to_resource_policy(statement)] extends the policy of the
    bucket in place. *)
Definition add_to_resource_policy (bucket : string) (st : iam.PolicyStatement) : M unit :=
  fun s =>
    (set_children s
       (alter (with_bucket (fun b =>
                 {| s3.props := s3.props b;
                    s3.policy := s3.policy b ++ [st] |}))
              bucket (children s)),
     Returned tt).

(** Modelled from the spec: what the toolkit's [grant_public_access] adds
    for [public_read_access=True], which is not in src/: public read is
    granted only for object-read actions, scoped to all objects under the
    resource. *)
Definition grant_public_access (bucket : string) : iam.PolicyStatement :=
  {| iam.actions := ["s3:GetObject"];
     iam.resources := [s3.arn_for_objects bucket "*"];
     iam.principals := [iam.AnyPrincipal] |}.

(** The toolkit refuses a public grant on a bucket that blocks public
    policies. *)
Definition blocks_public_policy (p : s3.BucketProps) : bool :=
  match s3.block_public_access p with
  | Some o => s3.block_public_policy o
  | None => false
  end.

(** The id under which the stack holds the provider that empties a bucket
    before it is destroyed. *)
Definition auto_delete_provider : string :=
  "Custom::S3AutoDeleteObjectsCustomResourceProvider".

(** What [auto_delete_objects=True] adds to the policy of the bucket: the
    role of the provider may list and delete the objects and close the
    bucket against new ones. *)
Definition auto_delete_grant (bucket : string) : iam.PolicyStatement :=
  {| iam.actions := ["s3:PutBucketPolicy"; "s3:GetBucket*"; "s3:List*"; "s3:DeleteObject*"];
     iam.resources := [s3.bucket_arn bucket; s3.arn_for_objects bucket "*"];
     iam.principals := [iam.ArnPrincipal [Attr auto_delete_provider "RoleArn"]] |}.

(** [s3.Bucket(self, id, **props)]: the bucket registers itself, makes the
    public grant of [public_read_access], and for [auto_delete_objects],
    which needs the DESTROY removal policy, shares the provider of the
    stack and grants its role; the result stands for the Python reference
    to the new bucket. *)
Definition s3_Bucket (id : string) (p : s3.BucketProps) : M string :=
  add_child id (CBucket {| s3.props := p; s3.policy := [] |}) ;;;
  (if s3.public_read_access p then
     if blocks_public_policy p then raise PublicAccessBlocked
     else add_to_resource_policy id (grant_public_access id)
   else ret tt) ;;;
  (if s3.auto_delete_objects p then
     match s3.removal_policy p with
     | Some RemovalPolicy.DESTROY =>
         get_or_create_child auto_delete_provider
           (CCustomResourceProvider "Custom::S3AutoDeleteObjects") ;;;
         add_to_resource_policy id (auto_delete_grant id)
     | _ => raise AutoDeleteWithoutDestroy
     end
   else ret tt) ;;;
  ret id.

(** [cloudfront.Distribution(self, id, **props)] *)
Definition cloudfront_Distribution (id : string) (p : cloudfront.DistributionProps) : M string :=
  add_child id (CDistribution p) ;;;
  ret id.

(** Modelled from the spec: binding a [Source.asset], which is not in
    src/: an invalid local asset path fails immediately and locally. *)
Definition bind_source (env : Env) (src : s3deploy.Source) : M s3deploy.BoundSource :=
  match src with
  | s3deploy.asset path =>
      match directories env !! path with
      | Some dir => ret {| s3deploy.asset_path := path; s3deploy.asset_content := dir |}
      | None => raise (AssetNotFound path)
      end
  end.

Fixpoint bind_sources (env : Env) (srcs : list s3deploy.Source) : M (list s3deploy.BoundSource) :=
  match srcs with
  | [] => ret []
  | src :: rest =>
      b <- bind_source env src ;;
      bs <- bind_sources env rest ;;
      ret (b :: bs)
  end.

(** The id under which the stack holds the handler of its bucket
    deployments. *)
Definition deployment_handler : string :=
  "Custom::CDKBucketDeployment8693BB64968944B69AAFB0CC9EB8756C".

Definition with_sources (bound : list s3deploy.BoundSource) (c : Construct) : Construct :=
  match c with
  | CBucketDeployment bd =>
      CBucketDeployment
        {| s3deploy.sources := bound;
           s3deploy.destination_bucket := s3deploy.destination_bucket bd;
           s3deploy.distribution := s3deploy.distribution bd;
           s3deploy.distribution_paths := s3deploy.distribution_paths bd |}
  | _ => c
  end.

(** [s3deploy.BucketDeployment(self, id, sources=..., destination_bucket=...,
    distribution=..., distribution_paths=...)]: the deployment registers
    itself, checks the invalidation paths (they need a distribution and
    start with a separator), shares the handler of the stack, and only
    then binds its sources. *)
Definition s3deploy_BucketDeployment (env : Env) (id : string)
    (srcs : list s3deploy.Source) (destination : string)
    (dist : option string) (paths : list string) : M unit :=
  add_child id
    (CBucketDeployment
       {| s3deploy.sources := [];
          s3deploy.destination_bucket := destination;
          s3deploy.distribution := dist;
          s3deploy.distribution_paths := paths |}) ;;;
  (match paths, dist with
   | _ :: _, None => raise DistributionPathsWithoutDistribution
   | _, _ => ret tt
   end) ;;;
  (match find (fun path => negb (os_path.startswith_sep path)) paths with
   | Some path => raise (DistributionPathNotAbsolute path)
   | None => ret tt
   end) ;;;
  get_or_create_child deployment_handler (CSingletonFunction "Custom::CDKBucketDeployment") ;;;
  bound <- bind_sources env srcs ;;
  fun s => (set_children s (alter (with_sources bound) id (children s)), Returned tt).

(** [CfnOutput(self, id, value=...)] *)
Definition CfnOutput (id : string) (v : Value) : M unit :=
  add_child id (COutput {| value := v |}).

(** ** Stack.__init__

    The base class is the toolkit's.  It takes its keyword arguments by
    name and kind, replaces the path separator in the id, refuses the
    empty id and an id that is taken in the scope, and checks the name of
    the stack, which is the [stack_name] argument or else the id. *)

Inductive Kind := KStr | KBool | KList | KDict | KObject | KEnv.

Definition has_kind (k : Kind) (v : PyValue) : bool :=
  match v, k with
  | PyNone, _ => true
  | PyStr _, KStr => true
  | PyBool _, KBool => true
  | PyList _, KList => true
  | PyDict _, (KDict | KEnv) => true
  | PyObject _, (KObject | KEnv) => true
  | _, _ => false
  end.

(** The keyword arguments of [Stack.__init__]. *)
Definition Stack_keywords : list (string * Kind) :=
  [ ("analytics_reporting", KBool);
    ("cross_region_references", KBool);
    ("description", KStr);
    ("env", KEnv);
    ("notification_arns", KList);
    ("permissions_boundary", KObject);
    ("stack_name", KStr);
    ("suppress_template_indentation", KBool);
    ("synthesizer", KObject);
    ("tags", KDict);
    ("termination_protection", KBool) ].

Fixpoint keyword_kind (key : string) (table : list (string * Kind)) : option Kind :=
  match table with
  | [] => None
  | (key', k) :: rest => if String.eqb key key' then Some k else keyword_kind key rest
  end.

Definition accepts_keyword (kv : string * PyValue) : bool :=
  match keyword_kind kv.1 Stack_keywords with
  | Some k => has_kind k kv.2
  | None => false
  end.

(** A keyword argument that [Stack.__init__] does not take. *)
Definition bad_keyword (kwargs : gmap string PyValue) : option string :=
  fst <$> find (fun kv => negb (accepts_keyword kv)) (map_to_list kwargs).

Definition in_range (lo hi : nat) (c : ascii) : bool :=
  Nat.leb lo (nat_of_ascii c) && Nat.leb (nat_of_ascii c) hi.

Definition is_letter (c : ascii) : bool := in_range 65 90 c || in_range 97 122 c.

Definition is_name_char (c : ascii) : bool :=
  is_letter c || in_range 48 57 c || Ascii.eqb c "-"%char.

Fixpoint all_chars (p : ascii -> bool) (s : string) : bool :=
  match s with
  | EmptyString => true
  | String c rest => p c && all_chars p rest
  end.

(** The pattern of a stack name: a letter, then letters, digits and
    hyphens. *)
Definition valid_stack_name (name : string) : bool :=
  match name with
  | EmptyString => false
  | String c rest => is_letter c && all_chars is_name_char rest
  end.

(** The id of a node: every path separator becomes two hyphens. *)
Fixpoint sanitize_id (id : string) : string :=
  match id with
  | EmptyString => EmptyString
  | String c rest =>
      if Ascii.eqb c os_path.sep then String "-" (String "-" (sanitize_id rest))
      else String c (sanitize_id rest)
  end.

(** [Stack.__init__(scope, construct_id, **kwargs)], for a [scope] given by
    the ids of its children. *)
Definition Stack_init (scope : gset string) (construct_id : string)
    (kwargs : gmap string PyValue) : Completion StackNode :=
  match bad_keyword kwargs with
  | Some keyword => Raised (TypeError keyword)
  | None =>
      let id := sanitize_id construct_id in
      if os_path.is_empty id then Raised EmptyId
      else if decide (id ∈ scope) then Raised (DuplicateConstruct id)
      else
        let name := match kwargs !! "stack_name" with
                    | Some (PyStr n) => n
                    | _ => id
                    end in
        if Nat.ltb 128 (String.length name) then Raised (StackNameTooLong name)
        else if valid_stack_name name
             then Returned {| stack_id := id; stack_kwargs := kwargs; children := ∅ |}
             else Raised (InvalidStackName name)
  end.

(** ** infra_stack.py *)

Module InfraStack.

(** The body of [InfraStack.__init__] after the call of the base
    class. *)
Definition body (env : Env) : M unit :=
  (* Create an S3 bucket to host the website *)
  website_bucket <- s3_Bucket "ElectronOrbitalViewerBucket"
    {| s3.website_index_document := Some "index.html";
       s3.website_error_document := Some "index.html";
       s3.public_read_access := true;
       s3.block_public_access := Some s3.BlockPublicAccess.BLOCK_ACLS;
       s3.removal_policy := Some RemovalPolicy.DESTROY;
       s3.auto_delete_objects := true;
       s3.access_control := None |} ;;
  (* Grant public read access to the bucket *)
  add_to_resource_policy website_bucket
    {| iam.actions := ["s3:GetObject"];
       iam.resources := [s3.arn_for_objects website_bucket "*"];
       iam.principals := [iam.AnyPrincipal] |} ;;;
  (* CloudFront distribution for the website *)
  distribution <- cloudfront_Distribution "ElectronOrbitalViewerDistribution"
    {| cloudfront.default_behavior :=
         {| cloudfront.origin := origins.S3BucketOrigin website_bucket;
            cloudfront.viewer_protocol_policy :=
              Some cloudfront.ViewerProtocolPolicy.REDIRECT_TO_HTTPS;
            cloudfront.cache_policy :=
              Some cloudfront.CachePolicy.CACHING_OPTIMIZED |};
       cloudfront.additional_behaviors := ∅;
       cloudfront.default_root_object := Some "index.html";
       cloudfront.error_responses :=
         [ {| cloudfront.http_status := 404;
              cloudfront.response_http_status := Some 200;
              cloudfront.response_page_path := Some "/index.html" |} ] |} ;;
  (* Deploy the website to S3 *)
  s3deploy_BucketDeployment env "DeployElectronOrbitalViewer"
    [s3deploy.asset
       (os_path.join (os_path.dirname (os_path.dirname (module_file env))) "dist")]
    website_bucket
    (Some distribution)
    ["/*"] ;;;
  (* Output the CloudFront URL *)
  CfnOutput "CloudFrontURL" (Lit "https://" :: cloudfront.distribution_domain_name distribution) ;;;
  CfnOutput "BucketURL" (s3.bucket_website_url website_bucket).

(** The outcome of [InfraStack(scope, construct_id, **kwargs)]: the new
    stack, or the exception together with the stack as far as it was
    built when the exception was raised. *)
Inductive Outcome :=
| Instance (stack : StackNode)
| Failure (e : Exception) (partial : option StackNode).

Definition __init__ (env : Env) (scope : gset string) (construct_id : string)
    (kwargs : gmap string PyValue) : Outcome :=
  match Stack_init scope construct_id kwargs with
  | Raised e => Failure e None
  | Returned self =>
      match body env self with
      | (stack, Returned _) => Instance stack
      | (stack, Raised e) => Failure e (Some stack)
      end
  end.

End InfraStack.

(** ** Decidable equality of the resource graph *)

#[global] Instance Part_eq_dec : EqDecision Part.
Proof. solve_decision. Defined.
#[global] Instance RemovalPolicy_eq_dec : EqDecision RemovalPolicy.t.
Proof. solve_decision. Defined.
#[global] Instance Principal_eq_dec : EqDecision iam.Principal.
Proof. solve_decision. Defined.
#[global] Instance PolicyStatement_eq_dec : EqDecision iam.PolicyStatement.
Proof. solve_decision. Defined.
#[global] Instance BlockPublicAccessOptions_eq_dec : EqDecision s3.BlockPublicAccessOptions.
Proof. solve_decision. Defined.
#[global] Instance BucketAccessControl_eq_dec : EqDecision s3.BucketAccessControl.t.
Proof. solve_decision. Defined.
#[global] Instance BucketProps_eq_dec : EqDecision s3.BucketProps.
Proof. solve_decision. Defined.
#[global] Instance BucketNode_eq_dec : EqDecision s3.BucketNode.
Proof. solve_decision. Defined.
#[global] Instance Origin_eq_dec : EqDecision origins.Origin.
Proof. solve_decision. Defined.
#[global] Instance ViewerProtocolPolicy_eq_dec : EqDecision cloudfront.ViewerProtocolPolicy.t.
Proof. solve_decision. Defined.
#[global] Instance CachePolicy_eq_dec : EqDecision cloudfront.CachePolicy.t.
Proof. solve_decision. Defined.
#[global] Instance BehaviorOptions_eq_dec : EqDecision cloudfront.BehaviorOptions.
Proof. solve_decision. Defined.
#[global] Instance ErrorResponse_eq_dec : EqDecision cloudfront.ErrorResponse.
Proof. solve_decision. Defined.
#[global] Instance DistributionProps_eq_dec : EqDecision cloudfront.DistributionProps.
Proof. solve_decision. Defined.
#[global] Instance BoundSource_eq_dec : EqDecision s3deploy.BoundSource.
Proof. solve_decision. Defined.
#[global] Instance BucketDeploymentNode_eq_dec : EqDecision s3deploy.BucketDeploymentNode.
Proof. solve_decision. Defined.
#[global] Instance CfnOutputNode_eq_dec : EqDecision CfnOutputNode.
Proof. solve_decision. Defined.
#[global] Instance Construct_eq_dec : EqDecision Construct.
Proof. solve_decision. Defined.

(** ** Reading the resource graph *)

Definition is_bucket (c : Construct) : bool :=
  match c with CBucket _ => true | _ => false end.

Definition is_distribution (c : Construct) : bool :=
  match c with CDistribution _ => true | _ => false end.

Definition is_deployment (c : Construct) : bool :=
  match c with CBucketDeployment _ => true | _ => false end.

(** How many children of the stack satisfy [p]. *)
Definition count_constructs (p : Construct -> bool) (stack : StackNode) : nat :=
  size (filter (fun kc => p kc.2 = true) (children stack)).

(** The behaviors of a distribution: the default one and the additional
    ones by path pattern. *)
Definition behaviors (d : cloudfront.DistributionProps) : list cloudfront.BehaviorOptions :=
  cloudfront.default_behavior d :: (map_to_list (cloudfront.additional_behaviors d)).*2.

(** The error-response mapping that applies to an origin status. *)
Definition error_response_for (d : cloudfront.DistributionProps) (status : nat)
    : option cloudfront.ErrorResponse :=
  find (fun e => Nat.eqb (cloudfront.http_status e) status) (cloudfront.error_responses d).

(** A statement that grants something to an arbitrary principal. *)
Definition grants_to_anyone (st : iam.PolicyStatement) : Prop :=
  iam.AnyPrincipal ∈ iam.principals st.

(** The ACL route to public access is shut. *)
Definition blocks_acls (o : s3.BlockPublicAccessOptions) : bool :=
  s3.block_public_acls o && s3.ignore_public_acls o.

(** The policy route to public access is open. *)
Definition allows_public_policy (o : s3.BlockPublicAccessOptions) : bool :=
  negb (s3.block_public_policy o) && negb (s3.restrict_public_buckets o).

(** The asset directory the descriptor hands to the content-sync source. *)
Definition asset_dir (env : Env) : string :=
  os_path.join (os_path.dirname (os_path.dirname (module_file env))) "dist".

(** ** The synthesized template and the assertions of the tests

    [assertions.Template] is the toolkit's; it is modelled as far as the
    two tests of the repository query it. *)

#[local] Set Warnings "-register-all".

Inductive json :=
| JStr (s : string)
| JObj (fields : list (string * json)).

Fixpoint assoc {A} (k : string) (l : list (string * A)) : option A :=
  match l with
  | [] => None
  | (k', v) :: rest => if String.eqb k k' then Some v else assoc k rest
  end.

(** The matcher of [has_resource_properties]: every key of the pattern is
    present in the actual object with a matching value. *)
Fixpoint object_like (pattern actual : json) : bool :=
  match pattern, actual with
  | JStr s, JStr s' => String.eqb s s'
  | JObj pf, JObj af =>
      forallb (fun kv =>
                 match assoc kv.1 af with
                 | Some v' => object_like kv.2 v'
                 | None => false
                 end) pf
  | _, _ => false
  end.

Record Resource := {
  Type_ : string;
  Properties : json;
}.

Definition opt_field (k : string) (v : option string) : list (string * json) :=
  match v with
  | Some s => [(k, JStr s)]
  | None => []
  end.

(** Modelled from the spec: the resource a construct synthesizes to, which
    is the toolkit's and not in src/: a storage resource with its website
    index and error document, a distribution resource, a content-sync
    action; an output is not a resource.  A provider or handler of the
    toolkit is listed by its function. *)
Definition synth (c : Construct) : option Resource :=
  match c with
  | CBucket b =>
      Some {| Type_ := "AWS::S3::Bucket";
              Properties :=
                JObj [("WebsiteConfiguration",
                       JObj (opt_field "IndexDocument" (s3.website_index_document (s3.props b))
                             ++ opt_field "ErrorDocument" (s3.website_error_document (s3.props b))))] |}
  | CDistribution d =>
      Some {| Type_ := "AWS::CloudFront::Distribution";
              Properties :=
                JObj [("DistributionConfig",
                       JObj (opt_field "DefaultRootObject" (cloudfront.default_root_object d)))] |}
  | CBucketDeployment _ =>
      Some {| Type_ := "Custom::CDKBucketDeployment"; Properties := JObj [] |}
  | COutput _ => None
  | CCustomResourceProvider _ | CSingletonFunction _ =>
      Some {| Type_ := "AWS::Lambda::Function"; Properties := JObj [] |}
  end.

Module Template.

(** [Template.from_stack(stack)] *)
Definition from_stack (stack : StackNode) : gmap string Resource :=
  omap synth (children stack).

Definition of_type (ty : string) (t : gmap string Resource) : list Resource :=
  List.filter (fun r => String.eqb (Type_ r) ty) (map_to_list t).*2.

(** [template.has_resource_properties(type, props)] *)
Definition has_resource_properties (t : gmap string Resource) (ty : string) (p : json) : bool :=
  existsb (fun r => object_like p (Properties r)) (of_type ty t).

(** [template.resource_count_is(type, count)] *)
Definition resource_count_is (t : gmap string Resource) (ty : string) (n : nat) : bool :=
  Nat.eqb (length (of_type ty t)) n.

End Template.

(** tests/unit/test_infra_stack.py: a test passes when the stack is built
    and the assertion holds. *)
Definition test_s3_bucket_created (env : Env) : bool :=
  match InfraStack.__init__ env ∅ "electron-orbital-viewer" ∅ with
  | InfraStack.Instance stack =>
      Template.has_resource_properties (Template.from_stack stack) "AWS::S3::Bucket"
        (JObj [("WebsiteConfiguration",
                JObj [("IndexDocument", JStr "index.html");
                      ("ErrorDocument", JStr "index.html")])])
  | InfraStack.Failure _ _ => false
  end.

Definition test_cloudfront_distribution_created (env : Env) : bool :=
  match InfraStack.__init__ env ∅ "electron-orbital-viewer" ∅ with
  | InfraStack.Instance stack =>
      Template.resource_count_is (Template.from_stack stack) "AWS::CloudFront::Distribution" 1
  | InfraStack.Failure _ _ => false
  end.

(** ** The reconciliation engine, as the spec describes it *)

Inductive Change :=
| Create (c : Construct)
| Update (old new : Construct)
| Delete (c : Construct).

Definition change_of (old new : option Construct) : option Change :=
  match old, new with
  | None, None => None
  | None, Some c => Some (Create c)
  | Some c, None => Some (Delete c)
  | Some c, Some c' => if decide (c = c') then None else Some (Update c c')
  end.

(** Modelled from the spec: the diff of the reconciliation engine, which is
    external and not in src/: it compares the submitted resource graph
    with the previously reconciled one and yields, per resource, the
    create, update or delete operation that makes them converge. *)
Definition diff (reconciled submitted : gmap string Construct) : gmap string Change :=
  merge change_of reconciled submitted.



(** Modelled from the spec: what teardown does to one storage resource,
    which is the provider's and not in src/: with the DESTROY policy the
    resource is destroyed, and emptied first when objects are deleted
    automatically; a resource that still holds objects cannot be
    destroyed; under any other policy it is kept. *)
Definition teardown_bucket (b : s3.BucketNode) (objects : gmap string string)
    : option (gmap string string) :=
  match s3.removal_policy (s3.props b) with
  | Some RemovalPolicy.DESTROY =>
      if s3.auto_delete_objects (s3.props b) then None
      else if decide (objects = ∅) then None else Some objects
  | _ => Some objects
  end.

Definition teardown_resource (c : option Construct) (objects : option (gmap string string))
    : option (gmap string string) :=
  match c, objects with
  | Some (CBucket b), Some objs => teardown_bucket b objs
  | _, _ => objects
  end.

(** Teardown of a stack against the live storage resources, given by the
    objects each of them holds. *)
Definition teardown (stack : StackNode) (live : gmap string (gmap string string))
    : gmap string (gmap string string) :=
  merge teardown_resource (children stack) live.

(** ** The declared resource graph, written out

    The graph that the constructor builds when it returns, as data; that
    running the constructor yields exactly this graph is [body_builds]
    below. *)

Module Declared.

Definition bucket_id : string := "ElectronOrbitalViewerBucket".
Definition distribution_id : string := "ElectronOrbitalViewerDistribution".
Definition deployment_id : string := "DeployElectronOrbitalViewer".

Definition public_read : iam.PolicyStatement :=
  {| iam.actions := ["s3:GetObject"];
     iam.resources := [s3.arn_for_objects bucket_id "*"];
     iam.principals := [iam.AnyPrincipal] |}.

Definition bucket_props : s3.BucketProps :=
  {| s3.website_index_document := Some "index.html";
     s3.website_error_document := Some "index.html";
     s3.public_read_access := true;
     s3.block_public_access := Some s3.BlockPublicAccess.BLOCK_ACLS;
     s3.removal_policy := Some RemovalPolicy.DESTROY;
     s3.auto_delete_objects := true;
     s3.access_control := None |}.

(** The bucket once the explicit statement has joined the grants of
    [public_read_access] and [auto_delete_objects]. *)
Definition bucket : s3.BucketNode :=
  {| s3.props := bucket_props;
     s3.policy := [public_read; auto_delete_grant bucket_id; public_read] |}.

Definition not_found_to_index : cloudfront.ErrorResponse :=
  {| cloudfront.http_status := 404;
     cloudfront.response_http_status := Some 200;
     cloudfront.response_page_path := Some "/index.html" |}.

Definition behavior : cloudfront.BehaviorOptions :=
  {| cloudfront.origin := origins.S3BucketOrigin bucket_id;
     cloudfront.viewer_protocol_policy :=
       Some cloudfront.ViewerProtocolPolicy.REDIRECT_TO_HTTPS;
     cloudfront.cache_policy := Some cloudfront.CachePolicy.CACHING_OPTIMIZED |}.

Definition distribution : cloudfront.DistributionProps :=
  {| cloudfront.default_behavior := behavior;
     cloudfront.additional_behaviors := ∅;
     cloudfront.default_root_object := Some "index.html";
     cloudfront.error_responses := [not_found_to_index] |}.

(** The deployment as it registers itself, its sources not yet bound. *)
Definition unbound_deployment : s3deploy.BucketDeploymentNode :=
  {| s3deploy.sources := [];
     s3deploy.destination_bucket := bucket_id;
     s3deploy.distribution := Some distribution_id;
     s3deploy.distribution_paths := ["/*"] |}.

Definition deployment (path : string) (dir : gmap string string)
    : s3deploy.BucketDeploymentNode :=
  {| s3deploy.sources :=
       [ {| s3deploy.asset_path := path; s3deploy.asset_content := dir |} ];
     s3deploy.destination_bucket := bucket_id;
     s3deploy.distribution := Some distribution_id;
     s3deploy.distribution_paths := ["/*"] |}.

(** What is declared before the content-sync action. *)
Definition storage_and_cdn : gmap string Construct :=
  <[distribution_id := CDistribution distribution]>
    (<[auto_delete_provider := CCustomResourceProvider "Custom::S3AutoDeleteObjects"]>
       (<[bucket_id := CBucket bucket]> ∅)).

(** The stack when the binding of the sources fails. *)
Definition before_binding : gmap string Construct :=
  <[deployment_handler := CSingletonFunction "Custom::CDKBucketDeployment"]>
    (<[deployment_id := CBucketDeployment unbound_deployment]> storage_and_cdn).

Definition graph (path : string) (dir : gmap string string) : gmap string Construct :=
  <["BucketURL" := COutput {| value := [Attr bucket_id "WebsiteURL"] |}]>
    (<["CloudFrontURL" :=
         COutput {| value := [Lit "https://"; Attr distribution_id "DomainName"] |}]>
       (<[deployment_handler := CSingletonFunction "Custom::CDKBucketDeployment"]>
          (<[deployment_id := CBucketDeployment (deployment path dir)]>
             storage_and_cdn))).

End Declared.

(** ** The public-access invariant *)

(** A statement through which anyone may read objects. *)
Definition public_read_statement (st : iam.PolicyStatement) : Prop :=
  grants_to_anyone st /\ "s3:GetObject" ∈ iam.actions st.

(** Public read comes from the resource policy alone: the bucket blocks
    public access through ACLs, no ACL is requested for it, and its
    policy holds a public-read statement. *)
Definition public_by_policy_only (b : s3.BucketNode) : Prop :=
  s3.block_public_access (s3.props b) = Some s3.BlockPublicAccess.BLOCK_ACLS /\
  s3.access_control (s3.props b) = None /\
  Exists public_read_statement (s3.policy b).

Definition stack_inv (s : StackNode) : Prop :=
  forall id b, children s !! id = Some (CBucket b) -> public_by_policy_only b.

(** An operation keeps the invariant, whether it returns or raises. *)
Definition preserves {A} (m : M A) : Prop :=
  forall s, stack_inv s -> stack_inv (m s).1.

(** ** A stack with a given resource graph *)

Definition built (construct_id : string) (kwargs : gmap string PyValue)
    (g : gmap string Construct) : StackNode :=
  {| stack_id := construct_id; stack_kwargs := kwargs; children := g |}.

(** ** References between constructs *)

Definition is_output (c : Construct) : bool :=
  match c with COutput _ => true | _ => false end.

(** The constructs whose attributes a value refers to. *)
Fixpoint value_refs (v : Value) : list string :=
  match v with
  | [] => []
  | Lit _ :: rest => value_refs rest
  | Attr id _ :: rest => id :: value_refs rest
  end.

Definition declared_at (stack : StackNode) (id : string) : bool :=
  match children stack !! id with Some _ => true | None => false end.

Definition bucket_at (stack : StackNode) (id : string) : bool :=
  match children stack !! id with Some (CBucket _) => true | _ => false end.

Definition distribution_at (stack : StackNode) (id : string) : bool :=
  match children stack !! id with Some (CDistribution _) => true | _ => false end.

(** Every reference that a construct holds names a construct of the
    stack, of the kind the holder expects: the origin of a behavior and
    the destination of a deployment a bucket, the distribution of a
    deployment a distribution, and an attribute in a policy resource or
    in an output any declared construct. *)
Definition refs_resolved (stack : StackNode) (c : Construct) : bool :=
  match c with
  | CBucket b =>
      forallb (fun st =>
                 forallb (fun r => forallb (declared_at stack) (value_refs r))
                         (iam.resources st))
              (s3.policy b)
  | CDistribution d =>
      forallb (fun bh =>
                 match cloudfront.origin bh with
                 | origins.S3BucketOrigin bucket => bucket_at stack bucket
                 end)
              (behaviors d)
  | CBucketDeployment bd =>
      bucket_at stack (s3deploy.destination_bucket bd) &&
      match s3deploy.distribution bd with
      | Some dist => distribution_at stack dist
      | None => true
      end
  | COutput o => forallb (declared_at stack) (value_refs (value o))
  | CCustomResourceProvider _ | CSingletonFunction _ => true
  end.

(** ** Further sample environments *)

(** The package directly under the root of the file system. *)
Definition root_env : Env :=
  {| module_file := "/infra/infra_stack.py"; directories := ∅ |}.

(** The module named by a relative path without directory. *)
Definition relative_env : Env :=
  {| module_file := "infra_stack.py"; directories := ∅ |}.

(** ** A sample run: the setting of the unit tests *)

Definition sample_dir : gmap string string :=
  {[ "index.html" := "<html></html>"; "assets/app.js" := "render()" ]}.

Definition sample_env : Env :=
  {| module_file := "/repo/infra/infra/infra_stack.py";
     directories := {[ "/repo/infra/dist" := sample_dir ]} |}.

Definition sample_stack : StackNode :=
  {| stack_id := "electron-orbital-viewer";
     stack_kwargs := ∅;
     children := Declared.graph "/repo/infra/dist" sample_dir |}.

(** The same checkout later on: the asset directory is unchanged, another
    directory has appeared next to it. *)
Definition later_env : Env :=
  {| module_file := "/repo/infra/infra/infra_stack.py";
     directories :=
       {[ "/repo/infra/dist" := sample_dir;
          "/repo/infra/cdk.out" := {[ "manifest.json" := "{}" ]} ]} |}.


(** * Running the constructor *)

Section Run.

Context {A B : Type}.
Implicit Types (m : M A) (k : A -> M B) (s : StackNode).

Lemma bind_Returned m k s s' a :
  m s = (s', Returned a) -> bind m k s = k a s'.
Proof. unfold bind. by intros ->. Qed.

Lemma bind_Raised m k s s' e :
  m s = (s', Raised e) -> bind m k s = (s', Raised e).
Proof. unfold bind. by intros ->. Qed.

End Run.

Lemma add_child_fresh id c s :
  children s !! id = None ->
  add_child id c s = (set_children s (<[id := c]> (children s)), Returned tt).
Proof. unfold add_child. by intros ->. Qed.

Lemma add_child_taken id c c' s :
  children s !! id = Some c' ->
  add_child id c s = (s, Raised (DuplicateConstruct id)).
Proof. unfold add_child. by intros ->. Qed.

Lemma cloudfront_Distribution_fresh id p s :
  children s !! id = None ->
  cloudfront_Distribution id p s =
    (set_children s (<[id := CDistribution p]> (children s)), Returned id).
Proof.
  intros H. unfold cloudfront_Distribution.
  by rewrite (bind_Returned _ _ _ _ _ (add_child_fresh _ _ _ H)).
Qed.

(** Run on a stack without children, the body builds the declared graph,
    or stops while binding the sources of the content-sync action when
    the asset directory is missing. *)
Lemma body_builds env self :
  children self = ∅ ->
  InfraStack.body env self =
    match directories env !! asset_dir env with
    | Some dir => (set_children self (Declared.graph (asset_dir env) dir), Returned tt)
    | None =>
        (set_children self Declared.before_binding, Raised (AssetNotFound (asset_dir env)))
    end.
Proof.
  destruct self as [sid kw ch]. simpl. intros ->.
  unfold InfraStack.body, s3deploy_BucketDeployment, bind_sources, bind_source.
  fold (asset_dir env). generalize (asset_dir env). intros path.
  destruct (directories env !! path) as [dir|]; vm_compute; reflexivity.
Qed.

(** The base class hands over a stack without children. *)
Lemma Stack_init_fresh scope construct_id kwargs self :
  Stack_init scope construct_id kwargs = Returned self -> children self = ∅.
Proof.
  unfold Stack_init.
  destruct (bad_keyword kwargs); [done|].
  destruct (os_path.is_empty _); [done|].
  case_decide; [done|].
  destruct (Nat.ltb _ _); [done|].
  destruct (valid_stack_name _); [|done].
  by intros [= <-].
Qed.

(** What the base class refuses, and what it rewrites. *)
Example Stack_init_underscore :
  Stack_init ∅ "my_stack" ∅ = Raised (InvalidStackName "my_stack").
Proof. reflexivity. Qed.

Example Stack_init_empty_id : Stack_init ∅ "" ∅ = Raised EmptyId.
Proof. reflexivity. Qed.

Example Stack_init_unknown_keyword :
  Stack_init ∅ "viewer" {[ "foo" := PyStr "bar" ]} = Raised (TypeError "foo").
Proof. reflexivity. Qed.

Example Stack_init_taken :
  Stack_init {[ "viewer" ]} "viewer" ∅ = Raised (DuplicateConstruct "viewer").
Proof. reflexivity. Qed.

Example Stack_init_separator :
  Stack_init ∅ "a/b" ∅ =
    Returned {| stack_id := "a--b"; stack_kwargs := ∅; children := ∅ |}.
Proof. reflexivity. Qed.

Example Stack_init_stack_name :
  Stack_init ∅ "viewer" {[ "stack_name" := PyStr "orbital viewer" ]} =
    Raised (InvalidStackName "orbital viewer").
Proof. reflexivity. Qed.

(** The ways the constructor can end. *)
Lemma init_cases env scope construct_id kwargs :
  InfraStack.__init__ env scope construct_id kwargs =
    match Stack_init scope construct_id kwargs with
    | Raised e => InfraStack.Failure e None
    | Returned self =>
        match directories env !! asset_dir env with
        | Some dir =>
            InfraStack.Instance (set_children self (Declared.graph (asset_dir env) dir))
        | None =>
            InfraStack.Failure (AssetNotFound (asset_dir env))
              (Some (set_children self Declared.before_binding))
        end
    end.
Proof.
  unfold InfraStack.__init__.
  destruct (Stack_init scope construct_id kwargs) as [self|e] eqn:Hbase; [|done].
  rewrite body_builds by (by eapply Stack_init_fresh).
  by destruct (directories env !! asset_dir env).
Qed.

(** The constructor returns whenever the base class does and the asset
    directory exists. *)
Lemma init_returns env scope construct_id kwargs self dir :
  Stack_init scope construct_id kwargs = Returned self ->
  directories env !! asset_dir env = Some dir ->
  InfraStack.__init__ env scope construct_id kwargs =
    InfraStack.Instance (set_children self (Declared.graph (asset_dir env) dir)).
Proof.
  intros Hbase Hdir. by rewrite init_cases, Hbase, Hdir.
Qed.

Lemma instance_inv env scope construct_id kwargs stack :
  InfraStack.__init__ env scope construct_id kwargs = InfraStack.Instance stack ->
  exists dir id kw,
    directories env !! asset_dir env = Some dir /\
    stack = built id kw (Declared.graph (asset_dir env) dir).
Proof.
  rewrite init_cases.
  destruct (Stack_init scope construct_id kwargs) as [self|e]; [|done].
  destruct (directories env !! asset_dir env) as [dir|]; [|done].
  intros [= <-]. by exists dir, (stack_id self), (stack_kwargs self).
Qed.

Example sample_run :
  InfraStack.__init__ sample_env ∅ "electron-orbital-viewer" ∅ =
    InfraStack.Instance sample_stack.
Proof. reflexivity. Qed.

(** The asset directory lies next to the package of the module. *)
Example asset_dir_of_sample : asset_dir sample_env = "/repo/infra/dist".
Proof. reflexivity. Qed.

Example dirname_relative : os_path.dirname "infra_stack.py" = "".
Proof. reflexivity. Qed.

Example dirname_root : os_path.dirname "/infra_stack.py" = "/".
Proof. reflexivity. Qed.

Example join_empty : os_path.join "" "dist" = "dist".
Proof. reflexivity. Qed.

(** * The unit tests *)

(** Both tests pass exactly when the asset directory has been built. *)
Lemma tests_pass_when_built env dir :
  directories env !! asset_dir env = Some dir ->
  test_s3_bucket_created env = true /\
  test_cloudfront_distribution_created env = true.
Proof.
  intros Hdir.
  unfold test_s3_bucket_created, test_cloudfront_distribution_created.
  erewrite (init_returns env ∅ _ ∅ _ dir) by (done || reflexivity).
  split; vm_compute; reflexivity.
Qed.

Lemma tests_fail_when_unbuilt env :
  directories env !! asset_dir env = None ->
  test_s3_bucket_created env = false /\
  test_cloudfront_distribution_created env = false.
Proof.
  intros Hdir.
  unfold test_s3_bucket_created, test_cloudfront_distribution_created.
  by rewrite init_cases, Hdir.
Qed.

(** * The declared graph, child by child *)

Lemma graph_lookup path dir id c :
  Declared.graph path dir !! id = Some c ->
  (id = Declared.bucket_id /\ c = CBucket Declared.bucket) \/
  (id = Declared.distribution_id /\ c = CDistribution Declared.distribution) \/
  (id = Declared.deployment_id /\ c = CBucketDeployment (Declared.deployment path dir)) \/
  (exists o, c = COutput o) \/
  (exists t, c = CCustomResourceProvider t) \/
  (exists f, c = CSingletonFunction f).
Proof.
  unfold Declared.graph, Declared.storage_and_cdn.
  rewrite !lookup_insert_Some, lookup_empty.
  intros H.
  repeat (destruct H as [[<- <-]|[_ H]]; [by eauto 10|]).
  done.
Qed.

Lemma graph_bucket path dir id b :
  Declared.graph path dir !! id = Some (CBucket b) ->
  id = Declared.bucket_id /\ b = Declared.bucket.
Proof.
  intros H. apply graph_lookup in H.
  destruct H as [[-> [= <-]]|[[-> [= <-]]|[[-> [= <-]]|[[o [= ]]|[[t [= ]]|[f [= ]]]]]]];
    done.
Qed.

Lemma graph_distribution path dir id d :
  Declared.graph path dir !! id = Some (CDistribution d) ->
  id = Declared.distribution_id /\ d = Declared.distribution.
Proof.
  intros H. apply graph_lookup in H.
  destruct H as [[-> [= <-]]|[[-> [= <-]]|[[-> [= <-]]|[[o [= ]]|[[t [= ]]|[f [= ]]]]]]];
    done.
Qed.

Lemma graph_deployment path dir id bd :
  Declared.graph path dir !! id = Some (CBucketDeployment bd) ->
  id = Declared.deployment_id /\ bd = Declared.deployment path dir.
Proof.
  intros H. apply graph_lookup in H.
  destruct H as [[-> [= <-]]|[[-> [= <-]]|[[-> [= <-]]|[[o [= ]]|[[t [= ]]|[f [= ]]]]]]];
    done.
Qed.

Lemma graph_has_bucket path dir :
  Declared.graph path dir !! Declared.bucket_id = Some (CBucket Declared.bucket).
Proof. reflexivity. Qed.

Lemma graph_has_distribution path dir :
  Declared.graph path dir !! Declared.distribution_id =
    Some (CDistribution Declared.distribution).
Proof. reflexivity. Qed.

Lemma graph_has_deployment path dir :
  Declared.graph path dir !! Declared.deployment_id =
    Some (CBucketDeployment (Declared.deployment path dir)).
Proof. reflexivity. Qed.

(** * Counting constructs *)

Lemma count_empty p construct_id kwargs :
  count_constructs p (built construct_id kwargs ∅) = 0.
Proof. unfold count_constructs. simpl. by rewrite map_filter_empty. Qed.

Lemma count_insert p construct_id kwargs g id c :
  g !! id = None ->
  count_constructs p (built construct_id kwargs (<[id := c]> g)) =
    (if p c then 1 else 0) + count_constructs p (built construct_id kwargs g).
Proof.
  intros Hfresh. unfold count_constructs. simpl.
  destruct (p c) eqn:Hp.
  - rewrite map_filter_insert_True by done.
    rewrite map_size_insert_None; [done|].
    by rewrite map_lookup_filter, Hfresh.
  - rewrite map_filter_insert_False by (simpl; congruence).
    by rewrite delete_id.
Qed.

Lemma graph_counts p construct_id kwargs path dir :
  count_constructs p (built construct_id kwargs (Declared.graph path dir)) =
    (if p (CBucket Declared.bucket) then 1 else 0) +
    (if p (CCustomResourceProvider "Custom::S3AutoDeleteObjects") then 1 else 0) +
    (if p (CDistribution Declared.distribution) then 1 else 0) +
    (if p (CBucketDeployment (Declared.deployment path dir)) then 1 else 0) +
    (if p (CSingletonFunction "Custom::CDKBucketDeployment") then 1 else 0) +
    (if p (COutput {| value := [Lit "https://"; Attr Declared.distribution_id "DomainName"] |})
     then 1 else 0) +
    (if p (COutput {| value := [Attr Declared.bucket_id "WebsiteURL"] |}) then 1 else 0).
Proof.
  unfold Declared.graph, Declared.storage_and_cdn.
  rewrite !count_insert by reflexivity.
  rewrite count_empty. lia.
Qed.

(** * The claims *)

(** C1: for every instantiation of InfraStack, a storage resource is
    declared, it is the only one, and its website configuration has both
    the index document and the error document set to exactly
    "index.html"; this is what [test_s3_bucket_created] asserts of the
    synthesized template. *)
Theorem website_documents_are_index_html env scope construct_id kwargs stack :
  InfraStack.__init__ env scope construct_id kwargs = InfraStack.Instance stack ->
  count_constructs is_bucket stack = 1 /\
  (forall id b,
     children stack !! id = Some (CBucket b) ->
     s3.website_index_document (s3.props b) = Some "index.html" /\
     s3.website_error_document (s3.props b) = Some "index.html") /\
  Template.has_resource_properties (Template.from_stack stack) "AWS::S3::Bucket"
    (JObj [("WebsiteConfiguration",
            JObj [("IndexDocument", JStr "index.html");
                  ("ErrorDocument", JStr "index.html")])]) = true.
Proof.
  intros Hrun. apply instance_inv in Hrun as (dir & sid & kw & _ & ->).
  split; [|split].
  - by rewrite graph_counts.
  - intros id b Hb. simpl in Hb. by apply graph_bucket in Hb as [_ ->].
  - vm_compute. reflexivity.
Qed.

Lemma website_documents_witness :
  InfraStack.__init__ sample_env ∅ "electron-orbital-viewer" ∅ =
    InfraStack.Instance sample_stack /\
  count_constructs is_bucket sample_stack = 1 /\
  (forall id b,
     children sample_stack !! id = Some (CBucket b) ->
     s3.website_index_document (s3.props b) = Some "index.html" /\
     s3.website_error_document (s3.props b) = Some "index.html") /\
  Template.has_resource_properties (Template.from_stack sample_stack) "AWS::S3::Bucket"
    (JObj [("WebsiteConfiguration",
            JObj [("IndexDocument", JStr "index.html");
                  ("ErrorDocument", JStr "index.html")])]) = true.
Proof.
  split; [reflexivity|].
  apply (website_documents_are_index_html sample_env ∅ "electron-orbital-viewer" ∅).
  reflexivity.
Defined.

(** C2: for every instantiation of InfraStack, the resource graph contains
    exactly one distribution resource; this is what
    [test_cloudfront_distribution_created] asserts of the synthesized
    template. *)
Theorem exactly_one_distribution env scope construct_id kwargs stack :
  InfraStack.__init__ env scope construct_id kwargs = InfraStack.Instance stack ->
  count_constructs is_distribution stack = 1 /\
  Template.resource_count_is (Template.from_stack stack)
    "AWS::CloudFront::Distribution" 1 = true.
Proof.
  intros Hrun. apply instance_inv in Hrun as (dir & sid & kw & _ & ->).
  split.
  - by rewrite graph_counts.
  - vm_compute. reflexivity.
Qed.

Lemma exactly_one_distribution_witness :
  InfraStack.__init__ sample_env ∅ "electron-orbital-viewer" ∅ =
    InfraStack.Instance sample_stack /\
  count_constructs is_distribution sample_stack = 1 /\
  Template.resource_count_is (Template.from_stack sample_stack)
    "AWS::CloudFront::Distribution" 1 = true.
Proof.
  split; [reflexivity|].
  apply (exactly_one_distribution sample_env ∅ "electron-orbital-viewer" ∅).
  reflexivity.
Defined.

(** C3: the declared distribution has exactly one behavior, the default
    one, and the viewer protocol policy of that behavior is the one that
    redirects plain-HTTP viewers to HTTPS. *)
Theorem single_behavior_redirects_to_https env scope construct_id kwargs stack :
  InfraStack.__init__ env scope construct_id kwargs = InfraStack.Instance stack ->
  forall id d,
    children stack !! id = Some (CDistribution d) ->
    behaviors d = [cloudfront.default_behavior d] /\
    forall b,
      b ∈ behaviors d ->
      cloudfront.viewer_protocol_policy b =
        Some cloudfront.ViewerProtocolPolicy.REDIRECT_TO_HTTPS.
Proof.
  intros Hrun id d Hd. apply instance_inv in Hrun as (dir & sid & kw & _ & ->).
  simpl in Hd. apply graph_distribution in Hd as [_ ->].
  assert (Hone : behaviors Declared.distribution =
                 [cloudfront.default_behavior Declared.distribution]).
  { unfold behaviors. simpl. by rewrite map_to_list_empty. }
  split; [done|].
  intros b Hb. rewrite Hone in Hb.
  by apply list_elem_of_singleton in Hb as ->.
Qed.

Lemma single_behavior_witness :
  InfraStack.__init__ sample_env ∅ "electron-orbital-viewer" ∅ =
    InfraStack.Instance sample_stack /\
  forall id d,
    children sample_stack !! id = Some (CDistribution d) ->
    behaviors d = [cloudfront.default_behavior d] /\
    forall b,
      b ∈ behaviors d ->
      cloudfront.viewer_protocol_policy b =
        Some cloudfront.ViewerProtocolPolicy.REDIRECT_TO_HTTPS.
Proof.
  split; [reflexivity|].
  apply (single_behavior_redirects_to_https sample_env ∅ "electron-orbital-viewer" ∅).
  reflexivity.
Defined.

(** C4: the declared distribution maps an HTTP 404 to an HTTP 200 that
    serves /index.html, and declares no other error-response mapping: no
    other status is mapped. *)
Theorem not_found_served_as_index env scope construct_id kwargs stack :
  InfraStack.__init__ env scope construct_id kwargs = InfraStack.Instance stack ->
  forall id d,
    children stack !! id = Some (CDistribution d) ->
    length (cloudfront.error_responses d) = 1 /\
    (exists e,
       error_response_for d 404 = Some e /\
       cloudfront.response_http_status e = Some 200 /\
       cloudfront.response_page_path e = Some "/index.html") /\
    (forall status, status <> 404 -> error_response_for d status = None).
Proof.
  intros Hrun id d Hd. apply instance_inv in Hrun as (dir & sid & kw & _ & ->).
  simpl in Hd. apply graph_distribution in Hd as [_ ->].
  split; [done|]. split.
  - by exists Declared.not_found_to_index.
  - intros status Hne. unfold error_response_for.
    cbn [cloudfront.error_responses Declared.distribution find].
    change (cloudfront.http_status Declared.not_found_to_index) with 404.
    destruct (Nat.eqb_spec 404 status) as [Heq|_]; [|done].
    by destruct Hne.
Qed.

Lemma not_found_served_as_index_witness :
  InfraStack.__init__ sample_env ∅ "electron-orbital-viewer" ∅ =
    InfraStack.Instance sample_stack /\
  forall id d,
    children sample_stack !! id = Some (CDistribution d) ->
    length (cloudfront.error_responses d) = 1 /\
    (exists e,
       error_response_for d 404 = Some e /\
       cloudfront.response_http_status e = Some 200 /\
       cloudfront.response_page_path e = Some "/index.html") /\
    (forall status, status <> 404 -> error_response_for d status = None).
Proof.
  split; [reflexivity|].
  apply (not_found_served_as_index sample_env ∅ "electron-orbital-viewer" ∅).
  reflexivity.
Defined.

(** C5: whatever the environment, and so whatever the content of the
    asset directory, the content-sync action of an instantiated stack is
    declared once, names the declared distribution, and has the
    invalidation path set ["/*"]. *)
Theorem invalidation_is_all_paths env scope construct_id kwargs stack :
  InfraStack.__init__ env scope construct_id kwargs = InfraStack.Instance stack ->
  count_constructs is_deployment stack = 1 /\
  forall id bd,
    children stack !! id = Some (CBucketDeployment bd) ->
    s3deploy.distribution_paths bd = ["/*"] /\
    exists dist d,
      s3deploy.distribution bd = Some dist /\
      children stack !! dist = Some (CDistribution d).
Proof.
  intros Hrun. apply instance_inv in Hrun as (dir & sid & kw & _ & ->).
  split; [by rewrite graph_counts|].
  intros id bd Hbd. simpl in Hbd. apply graph_deployment in Hbd as [_ ->].
  split; [done|].
  exists Declared.distribution_id, Declared.distribution.
  split; [done|]. apply graph_has_distribution.
Qed.

Lemma invalidation_is_all_paths_witness :
  InfraStack.__init__ sample_env ∅ "electron-orbital-viewer" ∅ =
    InfraStack.Instance sample_stack /\
  count_constructs is_deployment sample_stack = 1 /\
  forall id bd,
    children sample_stack !! id = Some (CBucketDeployment bd) ->
    s3deploy.distribution_paths bd = ["/*"] /\
    exists dist d,
      s3deploy.distribution bd = Some dist /\
      children sample_stack !! dist = Some (CDistribution d).
Proof.
  split; [reflexivity|].
  apply (invalidation_is_all_paths sample_env ∅ "electron-orbital-viewer" ∅).
  reflexivity.
Defined.

(** * Teardown *)

Lemma teardown_lookup stack live id :
  teardown stack live !! id = teardown_resource (children stack !! id) (live !! id).
Proof.
  unfold teardown. rewrite lookup_merge.
  by destruct (children stack !! id), (live !! id).
Qed.

(** A storage resource under another removal policy outlives the stack. *)
Lemma teardown_keeps_retained stack live id b objects :
  children stack !! id = Some (CBucket b) ->
  s3.removal_policy (s3.props b) <> Some RemovalPolicy.DESTROY ->
  live !! id = Some objects ->
  teardown stack live !! id = Some objects.
Proof.
  intros Hb Hpol Hlive. rewrite teardown_lookup, Hb, Hlive. simpl.
  unfold teardown_bucket.
  destruct (s3.removal_policy (s3.props b)) as [[]|]; done.
Qed.

(** C6: the declared storage resource carries the DESTROY removal policy
    and the auto-delete-objects flag; so teardown of the stack leaves
    neither the storage resource nor any object of it, whatever it held. *)
Theorem teardown_destroys_bucket_and_objects env scope construct_id kwargs stack :
  InfraStack.__init__ env scope construct_id kwargs = InfraStack.Instance stack ->
  forall id b,
    children stack !! id = Some (CBucket b) ->
    s3.removal_policy (s3.props b) = Some RemovalPolicy.DESTROY /\
    s3.auto_delete_objects (s3.props b) = true /\
    forall live : gmap string (gmap string string), teardown stack live !! id = None.
Proof.
  intros Hrun id b Hb.
  assert (Hflags : s3.removal_policy (s3.props b) = Some RemovalPolicy.DESTROY /\
                   s3.auto_delete_objects (s3.props b) = true).
  { apply instance_inv in Hrun as (dir & sid & kw & _ & ->).
    simpl in Hb. by apply graph_bucket in Hb as [_ ->]. }
  destruct Hflags as [Hpol Hauto]. split; [done|]. split; [done|].
  intros live. rewrite teardown_lookup, Hb.
  destruct (live !! id) as [objects|]; [|done].
  simpl. unfold teardown_bucket. by rewrite Hpol, Hauto.
Qed.

Lemma teardown_destroys_witness :
  InfraStack.__init__ sample_env ∅ "electron-orbital-viewer" ∅ =
    InfraStack.Instance sample_stack /\
  forall id b,
    children sample_stack !! id = Some (CBucket b) ->
    s3.removal_policy (s3.props b) = Some RemovalPolicy.DESTROY /\
    s3.auto_delete_objects (s3.props b) = true /\
    forall live : gmap string (gmap string string), teardown sample_stack live !! id = None.
Proof.
  split; [reflexivity|].
  apply (teardown_destroys_bucket_and_objects sample_env ∅ "electron-orbital-viewer" ∅).
  reflexivity.
Defined.

(** * Public access *)

(** C7: in every instantiated stack the storage resource has a grant to
    an arbitrary principal, and every statement of its resource policy
    that grants to an arbitrary principal, whether it comes from
    [public_read_access] or from [add_to_resource_policy], allows the
    action s3:GetObject only and is scoped to all objects of the
    resource; so no statement grants any other action to an arbitrary
    principal. *)
Theorem public_grants_are_object_read_only env scope construct_id kwargs stack :
  InfraStack.__init__ env scope construct_id kwargs = InfraStack.Instance stack ->
  forall id b,
    children stack !! id = Some (CBucket b) ->
    Exists grants_to_anyone (s3.policy b) /\
    forall st,
      st ∈ s3.policy b ->
      grants_to_anyone st ->
      iam.actions st = ["s3:GetObject"] /\
      iam.resources st = [s3.arn_for_objects id "*"].
Proof.
  intros Hrun id b Hb. apply instance_inv in Hrun as (dir & sid & kw & _ & ->).
  simpl in Hb. apply graph_bucket in Hb as [-> ->].
  split.
  - apply Exists_cons_hd. unfold grants_to_anyone. simpl. apply list_elem_of_here.
  - intros st Hst Hany. simpl in Hst.
    apply elem_of_cons in Hst as [->|Hst]; [done|].
    apply elem_of_cons in Hst as [->|Hst].
    + unfold grants_to_anyone in Hany. simpl in Hany.
      by apply list_elem_of_singleton in Hany.
    + by apply list_elem_of_singleton in Hst as ->.
Qed.

Lemma public_grants_witness :
  InfraStack.__init__ sample_env ∅ "electron-orbital-viewer" ∅ =
    InfraStack.Instance sample_stack /\
  forall id b,
    children sample_stack !! id = Some (CBucket b) ->
    Exists grants_to_anyone (s3.policy b) /\
    forall st,
      st ∈ s3.policy b ->
      grants_to_anyone st ->
      iam.actions st = ["s3:GetObject"] /\
      iam.resources st = [s3.arn_for_objects id "*"].
Proof.
  split; [reflexivity|].
  apply (public_grants_are_object_read_only sample_env ∅ "electron-orbital-viewer" ∅).
  reflexivity.
Defined.

(** * Resynthesis and the diff *)

Lemma diff_lookup reconciled submitted id :
  diff reconciled submitted !! id = change_of (reconciled !! id) (submitted !! id).
Proof.
  unfold diff. rewrite lookup_merge.
  by destruct (reconciled !! id), (submitted !! id).
Qed.

(** The diff of a graph with itself is empty. *)
Lemma diff_same g : diff g g = ∅.
Proof.
  apply map_eq. intros id. rewrite diff_lookup, lookup_empty.
  destruct (g !! id) as [c|]; [|done].
  simpl. by case_decide.
Qed.

(** The diff reports every resource on which the graphs differ. *)
Lemma diff_reports reconciled submitted id :
  reconciled !! id <> submitted !! id ->
  is_Some (diff reconciled submitted !! id).
Proof.
  intros Hne. rewrite diff_lookup.
  destruct (reconciled !! id) as [c|], (submitted !! id) as [c'|]; simpl; try done.
  case_decide; [congruence|done].
Qed.

(** The constructor reads the environment only through the path of its
    module and the asset directory. *)
Lemma init_depends_on_assets_only env env' scope construct_id kwargs :
  module_file env = module_file env' ->
  directories env !! asset_dir env = directories env' !! asset_dir env' ->
  InfraStack.__init__ env scope construct_id kwargs =
    InfraStack.__init__ env' scope construct_id kwargs.
Proof.
  intros Hfile Hdir. rewrite !init_cases.
  assert (asset_dir env = asset_dir env') as Hpath by (unfold asset_dir; by rewrite Hfile).
  by rewrite Hdir, Hpath.
Qed.

(** C8: constructing the same descriptor twice, in environments that
    agree on the module path and on the content of the asset directory
    and may differ in everything else, yields the same stack, and the
    diff of the two resource graphs holds no change. *)
Theorem resynthesis_changes_nothing env env' scope construct_id kwargs stack stack' :
  module_file env = module_file env' ->
  directories env !! asset_dir env = directories env' !! asset_dir env' ->
  InfraStack.__init__ env scope construct_id kwargs = InfraStack.Instance stack ->
  InfraStack.__init__ env' scope construct_id kwargs = InfraStack.Instance stack' ->
  stack' = stack /\ diff (children stack) (children stack') = ∅.
Proof.
  intros Hfile Hdir Hrun Hrun'.
  rewrite (init_depends_on_assets_only env env') in Hrun by done.
  rewrite Hrun in Hrun'. injection Hrun' as <-.
  split; [done|]. apply diff_same.
Qed.

Lemma resynthesis_witness :
  module_file sample_env = module_file later_env /\
  directories sample_env !! asset_dir sample_env =
    directories later_env !! asset_dir later_env /\
  InfraStack.__init__ sample_env ∅ "electron-orbital-viewer" ∅ =
    InfraStack.Instance sample_stack /\
  InfraStack.__init__ later_env ∅ "electron-orbital-viewer" ∅ =
    InfraStack.Instance sample_stack /\
  sample_stack = sample_stack /\
  diff (children sample_stack) (children sample_stack) = ∅.
Proof.
  repeat (split; [reflexivity|]).
  apply (resynthesis_changes_nothing sample_env later_env ∅ "electron-orbital-viewer" ∅);
    reflexivity.
Defined.

(** * A missing asset directory *)



(** * The public-access invariant *)

Lemma ret_preserves {A} (a : A) : preserves (ret a).
Proof. by intros s. Qed.

Lemma raise_preserves {A} e : preserves (@raise A e).
Proof. by intros s. Qed.

Lemma bind_preserves {A B} (m : M A) (k : A -> M B) :
  preserves m -> (forall a, preserves (k a)) -> preserves (bind m k).
Proof.
  intros Hm Hk s Hs. unfold bind.
  specialize (Hm s Hs). destruct (m s) as [s' [a|e]]; simpl in *.
  - by apply Hk.
  - done.
Qed.

Lemma add_child_preserves id c :
  (forall b, c = CBucket b -> public_by_policy_only b) ->
  preserves (add_child id c).
Proof.
  intros Hc s Hs. unfold add_child.
  destruct (children s !! id) eqn:Hid; simpl; [done|].
  intros id' b. simpl. rewrite lookup_insert_Some.
  intros [[_ ->]|[_ Hb]]; [by apply Hc | by apply (Hs id')].
Qed.

Lemma get_or_create_child_preserves id c :
  (forall b, c = CBucket b -> public_by_policy_only b) ->
  preserves (get_or_create_child id c).
Proof.
  intros Hc s Hs. unfold get_or_create_child.
  destruct (children s !! id) eqn:Hid; simpl; [done|].
  intros id' b. simpl. rewrite lookup_insert_Some.
  intros [[_ ->]|[_ Hb]]; [by apply Hc | by apply (Hs id')].
Qed.

(** Whatever statement is added, the policy only grows and the ACL
    settings are not touched. *)
Lemma add_to_resource_policy_preserves bucket st :
  preserves (add_to_resource_policy bucket st).
Proof.
  intros s Hs id b. unfold add_to_resource_policy. simpl.
  rewrite lookup_alter.
  case_decide as Heq; [|by apply Hs].
  subst id. destruct (children s !! bucket) as [[b0| | | | |]|] eqn:Hb0; simpl; try done.
  intros [= <-]. destruct (Hs _ _ Hb0) as (Hblock & Hacl & Hpolicy).
  repeat split; simpl; [done..|].
  apply Exists_app. by left.
Qed.

(** The grant of [auto_delete_objects] goes to the role of the provider;
    it comes after the public grant and leaves it in place. *)
Lemma auto_delete_preserves id p :
  preserves
    (if s3.auto_delete_objects p then
       match s3.removal_policy p with
       | Some RemovalPolicy.DESTROY =>
           get_or_create_child auto_delete_provider
             (CCustomResourceProvider "Custom::S3AutoDeleteObjects") ;;;
           add_to_resource_policy id (auto_delete_grant id)
       | _ => raise AutoDeleteWithoutDestroy
       end
     else ret tt).
Proof.
  destruct (s3.auto_delete_objects p); [|apply ret_preserves].
  destruct (s3.removal_policy p) as [[]|]; try apply raise_preserves.
  apply bind_preserves; [by apply get_or_create_child_preserves|].
  intros _. apply add_to_resource_policy_preserves.
Qed.

(** The bucket is registered before its grants are made; once the public
    grant is in its policy the invariant holds of it. *)
Lemma s3_Bucket_preserves id p :
  s3.block_public_access p = Some s3.BlockPublicAccess.BLOCK_ACLS ->
  s3.access_control p = None ->
  s3.public_read_access p = true ->
  preserves (s3_Bucket id p).
Proof.
  intros Hblock Hacl Hpublic s Hs. unfold s3_Bucket.
  assert (blocks_public_policy p = false) as Hopen
    by (unfold blocks_public_policy; by rewrite Hblock).
  rewrite Hpublic, Hopen.
  unfold bind at 1, add_child.
  destruct (children s !! id) eqn:Hid; [done|].
  unfold bind at 1, add_to_resource_policy at 1.
  cbn [set_children children stack_id stack_kwargs].
  rewrite alter_insert_eq. cbn [with_bucket s3.props s3.policy app].
  apply (bind_preserves _ (fun _ => ret id));
    [apply auto_delete_preserves | intros _; apply ret_preserves |].
  intros id' b. simpl. rewrite lookup_insert_Some.
  intros [[_ [= <-]]|[_ Hb]]; [|by apply (Hs id')].
  repeat split; simpl; [done..|].
  apply Exists_cons_hd. split; apply list_elem_of_here.
Qed.

Lemma cloudfront_Distribution_preserves id p :
  preserves (cloudfront_Distribution id p).
Proof.
  unfold cloudfront_Distribution.
  apply bind_preserves; [|intros _; apply ret_preserves].
  by apply add_child_preserves.
Qed.

Lemma bind_sources_preserves env srcs : preserves (bind_sources env srcs).
Proof.
  induction srcs as [|[path] rest IH]; simpl; [apply ret_preserves|].
  apply bind_preserves.
  - destruct (directories env !! path); [apply ret_preserves | apply raise_preserves].
  - intros b. apply bind_preserves; [done|]. intros bs. apply ret_preserves.
Qed.

Lemma with_sources_preserves bound id :
  preserves
    (fun s => (set_children s (alter (with_sources bound) id (children s)), Returned tt)).
Proof.
  intros s Hs id' b. simpl. rewrite lookup_alter.
  case_decide as Heq; [|by apply Hs].
  subst id'. destruct (children s !! id) as [[b0| | | | |]|] eqn:Hb0; simpl; try done.
  intros [= <-]. by apply (Hs id).
Qed.

Lemma s3deploy_BucketDeployment_preserves env id srcs destination dist paths :
  preserves (s3deploy_BucketDeployment env id srcs destination dist paths).
Proof.
  unfold s3deploy_BucketDeployment.
  apply bind_preserves; [by apply add_child_preserves|]. intros _.
  apply bind_preserves.
  { destruct paths, dist; (apply ret_preserves || apply raise_preserves). }
  intros _. apply bind_preserves.
  { destruct (find _ paths); [apply raise_preserves | apply ret_preserves]. }
  intros _. apply bind_preserves; [by apply get_or_create_child_preserves|]. intros _.
  apply bind_preserves; [apply bind_sources_preserves|]. intros bound.
  apply with_sources_preserves.
Qed.

Lemma CfnOutput_preserves id v : preserves (CfnOutput id v).
Proof. by apply add_child_preserves. Qed.

(** Every operation of the constructor keeps the invariant. *)
Lemma body_preserves env : preserves (InfraStack.body env).
Proof.
  unfold InfraStack.body.
  apply bind_preserves; [by apply s3_Bucket_preserves|]. intros website_bucket.
  apply bind_preserves; [apply add_to_resource_policy_preserves|]. intros _.
  apply bind_preserves; [apply cloudfront_Distribution_preserves|]. intros distribution.
  apply bind_preserves; [apply s3deploy_BucketDeployment_preserves|]. intros _.
  apply bind_preserves; [apply CfnOutput_preserves|]. intros _.
  apply CfnOutput_preserves.
Qed.

(** C10: BLOCK_ACLS shuts the ACL route to public access and leaves the
    policy route open; in the stack as the constructor leaves it, whether
    it returns or raises, every bucket has this setting, requests no ACL,
    and is publicly readable through a statement of its resource policy;
    and every operation on the bucket keeps this, whatever statement
    [add_to_resource_policy] is given. *)
Theorem public_read_is_by_policy_only env scope construct_id kwargs :
  blocks_acls s3.BlockPublicAccess.BLOCK_ACLS = true /\
  allows_public_policy s3.BlockPublicAccess.BLOCK_ACLS = true /\
  match InfraStack.__init__ env scope construct_id kwargs with
  | InfraStack.Instance stack =>
      stack_inv stack /\ exists b, children stack !! Declared.bucket_id = Some (CBucket b)
  | InfraStack.Failure _ (Some partial) => stack_inv partial
  | InfraStack.Failure _ None => True
  end /\
  forall bucket st, preserves (add_to_resource_policy bucket st).
Proof.
  split; [done|]. split; [done|]. split; [|apply add_to_resource_policy_preserves].
  destruct (InfraStack.__init__ env scope construct_id kwargs) as [stack|e [partial|]] eqn:Hrun;
    [| |done].
  - split.
    + revert Hrun. unfold InfraStack.__init__.
      destruct (Stack_init scope construct_id kwargs) as [self|e] eqn:Hbase; [|done].
      pose proof (body_preserves env self) as Hinv.
      destruct (InfraStack.body env self) as [s [[]|e]]; [|done].
      intros [= <-]. apply Hinv. intros id b.
      by rewrite (Stack_init_fresh _ _ _ _ Hbase), lookup_empty.
    + apply instance_inv in Hrun as (dir & sid & kw & _ & ->).
      exists Declared.bucket. apply graph_has_bucket.
  - revert Hrun. unfold InfraStack.__init__.
    destruct (Stack_init scope construct_id kwargs) as [self|e'] eqn:Hbase; [|done].
    pose proof (body_preserves env self) as Hinv.
    destruct (InfraStack.body env self) as [s [[]|e']]; [done|].
    intros [= _ <-]. apply Hinv. intros id b.
    by rewrite (Stack_init_fresh _ _ _ _ Hbase), lookup_empty.
Qed.

(** * Paths *)

Lemma append_nil (b : string) : "" +:+ b = b.
Proof. reflexivity. Qed.

Lemma append_cons x (a b : string) : String x a +:+ b = String x (a +:+ b).
Proof. reflexivity. Qed.

Lemma append_assoc (a b c : string) : (a +:+ b) +:+ c = a +:+ (b +:+ c).
Proof.
  induction a as [|x a IH]; [done|].
  by rewrite !append_cons, IH.
Qed.

Lemma has_sep_append a b :
  os_path.has_sep (a +:+ b) = os_path.has_sep a || os_path.has_sep b.
Proof.
  induction a as [|x a IH]; [done|].
  rewrite append_cons. simpl.
  by destruct (Ascii.eqb x os_path.sep).
Qed.

Lemma all_sep_append a b :
  os_path.all_sep (a +:+ b) = os_path.all_sep a && os_path.all_sep b.
Proof.
  induction a as [|x a IH]; [done|].
  rewrite append_cons. simpl.
  by destruct (Ascii.eqb x os_path.sep).
Qed.

Lemma upto_last_sep_none p :
  os_path.has_sep p = false -> os_path.upto_last_sep p = "".
Proof. destruct p as [|x p]; [done|]. cbn [os_path.upto_last_sep]. by intros ->. Qed.

Lemma upto_last_sep_append a b :
  os_path.has_sep b = false ->
  os_path.upto_last_sep (a +:+ String os_path.sep b) = a +:+ String os_path.sep "".
Proof.
  intros Hb. induction a as [|x a IH].
  - rewrite !append_nil. simpl. by rewrite upto_last_sep_none.
  - assert (os_path.has_sep (String x a +:+ String os_path.sep b) = true) as Hsep.
    { rewrite has_sep_append. simpl os_path.has_sep at 2. apply orb_true_r. }
    rewrite !append_cons in *.
    cbn [os_path.upto_last_sep]. by rewrite Hsep, IH.
Qed.

Lemma endswith_sep_none p :
  os_path.has_sep p = false -> os_path.endswith_sep p = false.
Proof.
  induction p as [|x p IH]; [done|]. simpl.
  destruct (Ascii.eqb x os_path.sep) eqn:Hx; [done|].
  intros Hp. destruct p; [done|]. by apply IH.
Qed.

Lemma endswith_sep_append a b :
  b <> "" -> os_path.endswith_sep (a +:+ b) = os_path.endswith_sep b.
Proof.
  intros Hb. induction a as [|x a IH]; [done|].
  rewrite append_cons. simpl. destruct (a +:+ b) eqn:Hab; [|done].
  destruct a; [by rewrite append_nil in Hab | by rewrite append_cons in Hab].
Qed.

Lemma not_all_sep p :
  p <> "" -> os_path.endswith_sep p = false -> os_path.all_sep p = false.
Proof.
  induction p as [|x p IH]; [done|]. intros _. simpl.
  destruct (Ascii.eqb x os_path.sep) eqn:Hx; [|done].
  destruct p; [done|]. intros Hp. by apply IH.
Qed.

Lemma rstrip_sep_append p :
  p <> "" -> os_path.endswith_sep p = false ->
  os_path.rstrip_sep (p +:+ String os_path.sep "") = p.
Proof.
  induction p as [|x p IH]; [done|]. intros _ Hend.
  assert (os_path.all_sep (String x p +:+ String os_path.sep "") = false) as Hall.
  { rewrite all_sep_append, not_all_sep; done. }
  rewrite append_cons in *.
  cbn [os_path.rstrip_sep]. rewrite Hall.
  destruct p as [|y p]; [done|].
  rewrite IH; done.
Qed.

(** The parent of [a/b], for a last component [b] and a parent [a] that is
    not empty and does not end in a separator. *)
Lemma dirname_parent a b :
  a <> "" -> os_path.endswith_sep a = false -> os_path.has_sep b = false ->
  os_path.dirname (a +:+ String os_path.sep b) = a.
Proof.
  intros Ha Hend Hb. unfold os_path.dirname.
  rewrite upto_last_sep_append by done.
  rewrite all_sep_append, not_all_sep by done.
  destruct a as [|x a]; [done|].
  rewrite append_cons at 1. cbn [os_path.is_empty negb andb].
  by apply rstrip_sep_append.
Qed.

Lemma dirname_none p : os_path.has_sep p = false -> os_path.dirname p = "".
Proof. intros Hp. unfold os_path.dirname. by rewrite upto_last_sep_none. Qed.

Lemma is_empty_false p : os_path.is_empty p = false -> p <> "".
Proof. by destruct p. Qed.

Lemma join_dist a :
  os_path.is_empty a = false -> os_path.endswith_sep a = false ->
  os_path.join a "dist" = a +:+ "/dist".
Proof. intros Ha Hend. unfold os_path.join. simpl. by rewrite Ha, Hend. Qed.

(** The asset directory is the sibling "dist" of the package directory:
    for a module at root/pkg/file it is root/dist, when root is not empty
    and does not end in a separator, and pkg and file are single
    components. *)
Theorem asset_dir_beside_package env root pkg file :
  os_path.is_empty root = false ->
  os_path.endswith_sep root = false ->
  os_path.is_empty pkg = false ->
  os_path.has_sep pkg = false ->
  os_path.has_sep file = false ->
  module_file env = root +:+ String os_path.sep (pkg +:+ String os_path.sep file) ->
  asset_dir env = root +:+ "/dist".
Proof.
  intros Hroot Hend Hpkg Hsep Hfile Hmod. unfold asset_dir. rewrite Hmod.
  change (String os_path.sep (pkg +:+ String os_path.sep file))
    with (String os_path.sep pkg +:+ String os_path.sep file).
  rewrite <- append_assoc.
  rewrite dirname_parent; [|destruct root; done| |done].
  - rewrite dirname_parent by (done || by apply is_empty_false).
    by apply join_dist.
  - rewrite endswith_sep_append by done.
    destruct pkg as [|x pkg]; [done|]. simpl in *.
    destruct (Ascii.eqb x os_path.sep); [done|].
    destruct pkg; [done|]. by apply endswith_sep_none.
Qed.

Lemma asset_dir_beside_package_witness :
  os_path.is_empty "/repo/infra" = false /\
  os_path.endswith_sep "/repo/infra" = false /\
  os_path.is_empty "infra" = false /\
  os_path.has_sep "infra" = false /\
  os_path.has_sep "infra_stack.py" = false /\
  module_file sample_env =
    "/repo/infra" +:+ String os_path.sep ("infra" +:+ String os_path.sep "infra_stack.py") /\
  asset_dir sample_env = "/repo/infra" +:+ "/dist".
Proof.
  repeat (split; [reflexivity|]).
  apply (asset_dir_beside_package sample_env "/repo/infra" "infra" "infra_stack.py");
    reflexivity.
Defined.

(** For a package directly under the root of the file system the second
    dirname stays at the root, and the asset directory is /dist. *)
Theorem asset_dir_under_root env pkg file :
  os_path.is_empty pkg = false ->
  os_path.has_sep pkg = false ->
  os_path.has_sep file = false ->
  module_file env = String os_path.sep (pkg +:+ String os_path.sep file) ->
  asset_dir env = "/dist".
Proof.
  intros Hpkg Hsep Hfile Hmod. unfold asset_dir. rewrite Hmod.
  change (String os_path.sep (pkg +:+ String os_path.sep file))
    with (String os_path.sep pkg +:+ String os_path.sep file).
  rewrite dirname_parent; [|done| |done].
  - unfold os_path.dirname at 1.
    rewrite <- (append_nil (String os_path.sep pkg)).
    by rewrite upto_last_sep_append.
  - destruct pkg as [|x pkg]; [done|]. simpl in *.
    destruct (Ascii.eqb x os_path.sep); [done|].
    destruct pkg; [done|]. by apply endswith_sep_none.
Qed.

Lemma asset_dir_under_root_witness :
  os_path.is_empty "infra" = false /\
  os_path.has_sep "infra" = false /\
  os_path.has_sep "infra_stack.py" = false /\
  module_file root_env = String os_path.sep ("infra" +:+ String os_path.sep "infra_stack.py") /\
  asset_dir root_env = "/dist".
Proof.
  repeat (split; [reflexivity|]).
  apply (asset_dir_under_root root_env "infra" "infra_stack.py"); reflexivity.
Defined.

(** When the module is named by a relative path with at most one
    directory, both dirnames run out of components and the asset
    directory is the relative path "dist". *)
Theorem asset_dir_relative env pkg file :
  os_path.is_empty pkg = false ->
  os_path.has_sep pkg = false ->
  os_path.has_sep file = false ->
  module_file env = file \/ module_file env = pkg +:+ String os_path.sep file ->
  asset_dir env = "dist".
Proof.
  intros Hpkg Hsep Hfile [Hmod|Hmod]; unfold asset_dir; rewrite Hmod.
  - by rewrite (dirname_none file), (dirname_none "").
  - rewrite dirname_parent; [|by apply is_empty_false|by apply endswith_sep_none|done].
    by rewrite (dirname_none pkg).
Qed.

Lemma asset_dir_relative_witness :
  os_path.is_empty "infra" = false /\
  os_path.has_sep "infra" = false /\
  os_path.has_sep "infra_stack.py" = false /\
  (module_file relative_env = "infra_stack.py" \/
   module_file relative_env = "infra" +:+ String os_path.sep "infra_stack.py") /\
  asset_dir relative_env = "dist".
Proof.
  repeat (split; [reflexivity|]).
  split; [left; reflexivity|].
  apply (asset_dir_relative relative_env "infra" "infra_stack.py");
    [reflexivity..|left; reflexivity].
Defined.

Lemma endswith_sep_snoc a : os_path.endswith_sep (a +:+ String os_path.sep "") = true.
Proof. by rewrite endswith_sep_append. Qed.

(** Wherever the module lies, the last component of the asset directory
    is "dist": the path is "dist" itself or ends in a separator followed
    by "dist". *)
Theorem asset_dir_is_named_dist env :
  exists parent,
    asset_dir env = parent +:+ "dist" /\
    (os_path.is_empty parent = true \/ os_path.endswith_sep parent = true).
Proof.
  unfold asset_dir, os_path.join.
  set (a := os_path.dirname (os_path.dirname (module_file env))).
  cbn [os_path.startswith_sep]. change (Ascii.eqb "d" os_path.sep) with false.
  destruct (os_path.is_empty a) eqn:Hempty; simpl orb.
  - exists a. by split; [|left].
  - destruct (os_path.endswith_sep a) eqn:Hend.
    + exists a. by split; [|right].
    + exists (a +:+ String os_path.sep ""). split.
      * by rewrite append_assoc.
      * right. apply endswith_sep_snoc.
Qed.

(** * The shape of the declared graph *)

Lemma graph_output path dir id o :
  Declared.graph path dir !! id = Some (COutput o) ->
  (id = "CloudFrontURL" /\
   o = {| value := Lit "https://" :: cloudfront.distribution_domain_name Declared.distribution_id |}) \/
  (id = "BucketURL" /\ o = {| value := s3.bucket_website_url Declared.bucket_id |}).
Proof.
  unfold Declared.graph, Declared.storage_and_cdn.
  rewrite !lookup_insert_Some, lookup_empty.
  intros H.
  destruct H as [[<- [= <-]]|[_ H]]; [by right|].
  destruct H as [[<- [= <-]]|[_ H]]; [by left|].
  repeat (destruct H as [[_ H]|[_ H]]; [done|]).
  done.
Qed.

(** No reference dangles: in every instantiated stack each construct
    refers only to constructs that the stack declares, and of the right
    kind. *)
Theorem references_are_resolved env scope construct_id kwargs stack :
  InfraStack.__init__ env scope construct_id kwargs = InfraStack.Instance stack ->
  forall id c, children stack !! id = Some c -> refs_resolved stack c = true.
Proof.
  intros Hrun id c Hc. apply instance_inv in Hrun as (dir & sid & kw & _ & ->).
  simpl in Hc. destruct c as [b|d|bd|o|t|f].
  - by apply graph_bucket in Hc as [_ ->].
  - apply graph_distribution in Hc as [_ ->].
    unfold refs_resolved, behaviors. simpl. by rewrite map_to_list_empty.
  - by apply graph_deployment in Hc as [_ ->].
  - by apply graph_output in Hc as [[_ ->]|[_ ->]].
  - done.
  - done.
Qed.

Lemma references_are_resolved_witness :
  InfraStack.__init__ sample_env ∅ "electron-orbital-viewer" ∅ =
    InfraStack.Instance sample_stack /\
  forall id c, children sample_stack !! id = Some c -> refs_resolved sample_stack c = true.
Proof.
  split; [reflexivity|].
  apply (references_are_resolved sample_env ∅ "electron-orbital-viewer" ∅).
  reflexivity.
Defined.

(** The stack has exactly two outputs: CloudFrontURL is "https://"
    followed by the domain name of the declared distribution, BucketURL
    is the website URL of the declared bucket. *)
Theorem outputs_name_distribution_and_bucket env scope construct_id kwargs stack :
  InfraStack.__init__ env scope construct_id kwargs = InfraStack.Instance stack ->
  count_constructs is_output stack = 2 /\
  (exists dist,
     distribution_at stack dist = true /\
     children stack !! "CloudFrontURL" =
       Some (COutput {| value := [Lit "https://"; Attr dist "DomainName"] |})) /\
  (exists bucket,
     bucket_at stack bucket = true /\
     children stack !! "BucketURL" =
       Some (COutput {| value := [Attr bucket "WebsiteURL"] |})).
Proof.
  intros Hrun. apply instance_inv in Hrun as (dir & sid & kw & _ & ->).
  split; [by rewrite graph_counts|]. split.
  - by exists Declared.distribution_id.
  - by exists Declared.bucket_id.
Qed.

Lemma outputs_witness :
  InfraStack.__init__ sample_env ∅ "electron-orbital-viewer" ∅ =
    InfraStack.Instance sample_stack /\
  count_constructs is_output sample_stack = 2 /\
  (exists dist,
     distribution_at sample_stack dist = true /\
     children sample_stack !! "CloudFrontURL" =
       Some (COutput {| value := [Lit "https://"; Attr dist "DomainName"] |})) /\
  (exists bucket,
     bucket_at sample_stack bucket = true /\
     children sample_stack !! "BucketURL" =
       Some (COutput {| value := [Attr bucket "WebsiteURL"] |})).
Proof.
  split; [reflexivity|].
  apply (outputs_name_distribution_and_bucket sample_env ∅ "electron-orbital-viewer" ∅).
  reflexivity.
Defined.

(** One index document throughout: what the bucket serves as index
    document is also the default root object of the distribution, and
    every error response of the distribution serves that document from
    the root. *)
Theorem index_document_is_consistent env scope construct_id kwargs stack :
  InfraStack.__init__ env scope construct_id kwargs = InfraStack.Instance stack ->
  forall bucket b dist d,
    children stack !! bucket = Some (CBucket b) ->
    children stack !! dist = Some (CDistribution d) ->
    exists index,
      s3.website_index_document (s3.props b) = Some index /\
      cloudfront.default_root_object d = Some index /\
      forall e,
        e ∈ cloudfront.error_responses d ->
        cloudfront.response_page_path e = Some ("/" +:+ index).
Proof.
  intros Hrun bucket b dist d Hb Hd. apply instance_inv in Hrun as (dir & sid & kw & _ & ->).
  simpl in Hb, Hd.
  apply graph_bucket in Hb as [_ ->]. apply graph_distribution in Hd as [_ ->].
  exists "index.html". split; [done|]. split; [done|].
  intros e He. simpl in He. by apply list_elem_of_singleton in He as ->.
Qed.

Lemma index_document_witness :
  InfraStack.__init__ sample_env ∅ "electron-orbital-viewer" ∅ =
    InfraStack.Instance sample_stack /\
  forall bucket b dist d,
    children sample_stack !! bucket = Some (CBucket b) ->
    children sample_stack !! dist = Some (CDistribution d) ->
    exists index,
      s3.website_index_document (s3.props b) = Some index /\
      cloudfront.default_root_object d = Some index /\
      forall e,
        e ∈ cloudfront.error_responses d ->
        cloudfront.response_page_path e = Some ("/" +:+ index).
Proof.
  split; [reflexivity|].
  apply (index_document_is_consistent sample_env ∅ "electron-orbital-viewer" ∅).
  reflexivity.
Defined.

(** The content-sync action fills the bucket that the distribution it
    invalidates serves from: the destination of the deployment is the
    origin of every behavior of its distribution, and these behaviors
    use the CACHING_OPTIMIZED cache policy. *)
Theorem deployment_feeds_the_origin env scope construct_id kwargs stack :
  InfraStack.__init__ env scope construct_id kwargs = InfraStack.Instance stack ->
  forall id bd,
    children stack !! id = Some (CBucketDeployment bd) ->
    bucket_at stack (s3deploy.destination_bucket bd) = true /\
    exists dist d,
      s3deploy.distribution bd = Some dist /\
      children stack !! dist = Some (CDistribution d) /\
      forall bh,
        bh ∈ behaviors d ->
        cloudfront.origin bh = origins.S3BucketOrigin (s3deploy.destination_bucket bd) /\
        cloudfront.cache_policy bh = Some cloudfront.CachePolicy.CACHING_OPTIMIZED.
Proof.
  intros Hrun id bd Hbd. apply instance_inv in Hrun as (dir & sid & kw & _ & ->).
  simpl in Hbd. apply graph_deployment in Hbd as [_ ->].
  split; [done|].
  exists Declared.distribution_id, Declared.distribution.
  split; [done|]. split; [apply graph_has_distribution|].
  intros bh. unfold behaviors. simpl. rewrite map_to_list_empty. simpl.
  by intros ->%list_elem_of_singleton.
Qed.

Lemma deployment_feeds_the_origin_witness :
  InfraStack.__init__ sample_env ∅ "electron-orbital-viewer" ∅ =
    InfraStack.Instance sample_stack /\
  forall id bd,
    children sample_stack !! id = Some (CBucketDeployment bd) ->
    bucket_at sample_stack (s3deploy.destination_bucket bd) = true /\
    exists dist d,
      s3deploy.distribution bd = Some dist /\
      children sample_stack !! dist = Some (CDistribution d) /\
      forall bh,
        bh ∈ behaviors d ->
        cloudfront.origin bh = origins.S3BucketOrigin (s3deploy.destination_bucket bd) /\
        cloudfront.cache_policy bh = Some cloudfront.CachePolicy.CACHING_OPTIMIZED.
Proof.
  split; [reflexivity|].
  apply (deployment_feeds_the_origin sample_env ∅ "electron-orbital-viewer" ∅).
  reflexivity.
Defined.

(** * How the body ends *)





(** * What is deployed *)

(** The content-sync action has a single source: the asset directory,
    with the content it had when the stack was constructed. *)
Theorem deployment_source_is_asset_dir env scope construct_id kwargs stack :
  InfraStack.__init__ env scope construct_id kwargs = InfraStack.Instance stack ->
  forall id bd,
    children stack !! id = Some (CBucketDeployment bd) ->
    exists dir,
      directories env !! asset_dir env = Some dir /\
      s3deploy.sources bd =
        [ {| s3deploy.asset_path := asset_dir env; s3deploy.asset_content := dir |} ].
Proof.
  intros (dir & sid & kw & Hdir & ->)%instance_inv id bd Hbd.
  simpl in Hbd. apply graph_deployment in Hbd as [_ ->].
  by exists dir.
Qed.

Lemma deployment_source_witness :
  InfraStack.__init__ sample_env ∅ "electron-orbital-viewer" ∅ =
    InfraStack.Instance sample_stack /\
  forall id bd,
    children sample_stack !! id = Some (CBucketDeployment bd) ->
    exists dir,
      directories sample_env !! asset_dir sample_env = Some dir /\
      s3deploy.sources bd =
        [ {| s3deploy.asset_path := asset_dir sample_env; s3deploy.asset_content := dir |} ].
Proof.
  split; [reflexivity|].
  apply (deployment_source_is_asset_dir sample_env ∅ "electron-orbital-viewer" ∅).
  reflexivity.
Defined.



(** * The unit tests and the asset directory *)

(** [test_s3_bucket_created] passes exactly when the asset directory
    exists: the test constructs the whole stack, content-sync action
    included. *)
Theorem test_s3_bucket_created_needs_assets env :
  test_s3_bucket_created env = true <-> is_Some (directories env !! asset_dir env).
Proof.
  destruct (directories env !! asset_dir env) as [dir|] eqn:Hdir.
  - split; [by eexists|]. intros _. by apply (tests_pass_when_built env dir).
  - split; [|by intros [? [=]]].
    intros Hpass. by rewrite (proj1 (tests_fail_when_unbuilt env Hdir)) in Hpass.
Qed.

(** [test_cloudfront_distribution_created] passes exactly when the asset
    directory exists. *)
Theorem test_cloudfront_distribution_created_needs_assets env :
  test_cloudfront_distribution_created env = true <->
  is_Some (directories env !! asset_dir env).
Proof.
  destruct (directories env !! asset_dir env) as [dir|] eqn:Hdir.
  - split; [by eexists|]. intros _. by apply (tests_pass_when_built env dir).
  - split; [|by intros [? [=]]].
    intros Hpass. by rewrite (proj2 (tests_fail_when_unbuilt env Hdir)) in Hpass.
Qed.
